(** * fritzconnection.lib.fritzhosts: the known-hosts library

    A shallow embedding of [fritzhosts.py] (class [FritzHosts], class
    [_Host], class [_HostStorage]) and the properties of its host
    enumeration, status lookup and attribute materialisation.

    Python values are a small sum type, the dictionaries returned by the
    action layer are finite maps from strings, exceptions are an error
    result, the instance dictionary of a [_Host] is an insertion-ordered
    association list, and the two [itertools.count()] loops run on fuel. *)

From Stdlib Require Import ZArith Ascii String List Lia DecimalString.
From stdpp Require Import gmap strings list fin_maps.

Set Warnings "-register-all".
Local Open Scope string_scope.
Local Open Scope list_scope.

(** ** Python values and exceptions *)

(** The Python objects that travel through this module: [None], booleans,
    integers and text. *)
Inductive pyval : Type :=
| PyNone
| PyBool (b : bool)
| PyInt (z : Z)
| PyStr (s : string).

#[global] Instance pyval_eq_dec : EqDecision pyval.
Proof. solve_decision. Defined.

(** Modelled from the spec: the exception classes of [core.exceptions]
    imported by the module ([FritzActionError], [FritzArgumentError],
    [FritzLookUpError]) follow the taxonomy of section 7: three pairwise
    distinct kinds, none of them an [IndexError].  [IndexError] is the
    out-of-range signal caught by the two enumeration loops; [KeyError],
    [ValueError] and [TypeError] are the builtin exceptions raised by a
    missing dictionary key and by [int()]. *)
Inductive exn : Type :=
| IndexError (message : string)
| FritzArgumentError (message : string)
| FritzLookUpError (message : string)
| FritzActionError (message : string)
| KeyError (key : string)
| ValueError
| TypeError.

#[global] Instance exn_eq_dec : EqDecision exn.
Proof. solve_decision. Defined.

(** [except IndexError] *)
Definition is_index_error (e : exn) : bool :=
  match e with IndexError _ => true | _ => false end.

(** [except (FritzArgumentError, FritzLookUpError)] *)
Definition is_argument_or_lookup_error (e : exn) : bool :=
  match e with
  | FritzArgumentError _ | FritzLookUpError _ => true
  | _ => false
  end.

(** The outcome of a call: a value, or a raised exception. *)
Inductive result (A : Type) : Type :=
| Ok (a : A)
| Raise (e : exn).
Arguments Ok {A} a.
Arguments Raise {A} e.

#[global] Instance result_ret : MRet result := fun A a => Ok a.
#[global] Instance result_bind : MBind result := fun A B f m =>
  match m with Ok a => f a | Raise e => Raise e end.
#[global] Instance result_fmap : FMap result := fun A B f m =>
  match m with Ok a => Ok (f a) | Raise e => Raise e end.

(** [bool(v)]: Python truthiness. *)
Definition truthy (v : pyval) : bool :=
  match v with
  | PyNone => false
  | PyBool b => b
  | PyInt z => negb (z =? 0)%Z
  | PyStr s => negb (String.eqb s "")
  end.

(** [str(i)] for an integer, as an f-string formats it. *)
Definition str_of_int (z : Z) : string := NilZero.string_of_int (Z.to_int z).

(** [str(v)], as an f-string formats a value. *)
Definition py_str (v : pyval) : string :=
  match v with
  | PyNone => "None"
  | PyBool true => "True"
  | PyBool false => "False"
  | PyInt z => str_of_int z
  | PyStr s => s
  end.

(** A dictionary keyed by strings, as the action layer returns it. *)
Abbreviation dict := (gmap string pyval).

(** [d[key]]: raises [KeyError] on a missing key. *)
Definition subscript (d : dict) (key : string) : result pyval :=
  match d !! key with
  | Some v => Ok v
  | None => Raise (KeyError key)
  end.

(** ** The collaborators: action layer, http session, xml retrieval *)

(** A parsed XML element: its local tag name, its text and its child
    elements. *)
Inductive xml_node : Type :=
| Node (tag : string) (text : option string) (children : list xml_node).

Definition node_tag (n : xml_node) : string :=
  match n with Node t _ _ => t end.
Definition node_text (n : xml_node) : option string :=
  match n with Node _ t _ => t end.
Definition node_children (n : xml_node) : list xml_node :=
  match n with Node _ _ c => c end.

(** An http response of the session; [J] is the type of decoded json. *)
Record response (J : Type) : Type := {
  status_code : Z;
  text : string;
  json : result J
}.
Arguments status_code {J} r.
Arguments text {J} r.
Arguments json {J} r.

(** [response.ok]: false for the client and server error codes. *)
Definition ok {J} (r : response J) : bool :=
  negb ((400 <=? status_code r)%Z && (status_code r <? 600)%Z).

(** The [FritzConnection] instance [self.fc] with the device behind it, in
    one device state: [call_action service action arguments kwargs], the
    address and port, [session.get url], and the retrieval of an xml
    document ([get_xml_root url session]). *)
Record FritzConnection (J : Type) : Type := {
  call_action : string -> string -> option dict -> dict -> result dict;
  address : string;
  port : Z;
  session_get : string -> result (response J);
  get_xml_root : pyval -> result xml_node
}.
Arguments call_action {J} f _ _ _ _.
Arguments address {J} f.
Arguments port {J} f.
Arguments session_get {J} f _.
Arguments get_xml_root {J} f _.

(** ** Insertion-ordered dictionaries

    The instance dictionary of a [_Host] and the snapshot built by
    [attributes] are Python dictionaries read in insertion order. *)
Abbreviation odict := (list (string * pyval)).

Fixpoint od_get (d : odict) (key : string) : option pyval :=
  match d with
  | [] => None
  | (k, v) :: d' => if String.eqb k key then Some v else od_get d' key
  end.

(** [d[key] = value]: an existing key keeps its position. *)
Fixpoint od_set (d : odict) (key : string) (value : pyval) : odict :=
  match d with
  | [] => [(key, value)]
  | (k, v) :: d' =>
      if String.eqb k key then (k, value) :: d'
      else (k, v) :: od_set d' key value
  end.

Definition od_keys (d : odict) : list string := map fst d.

(** ** int() *)

(** The white space [int()] strips from a text: tab to carriage return,
    the four separators, and the space. *)
Definition is_space (c : ascii) : bool :=
  let n := nat_of_ascii c in
  ((9 <=? n)%nat && (n <=? 13)%nat) || ((28 <=? n)%nat && (n <=? 32)%nat).

Fixpoint lstrip (s : list ascii) : list ascii :=
  match s with
  | c :: s' => if is_space c then lstrip s' else s
  | [] => []
  end.

Definition strip (s : list ascii) : list ascii := rev (lstrip (rev (lstrip s))).

Definition digit_value (c : ascii) : option Z :=
  let n := nat_of_ascii c in
  if ((48 <=? n)%nat && (n <=? 57)%nat) then Some (Z.of_nat (n - 48)) else None.

(** Decimal digits, with single underscores between digits only. *)
Fixpoint digits (acc : Z) (after_digit : bool) (s : list ascii) : option Z :=
  match s with
  | [] => if after_digit then Some acc else None
  | c :: s' =>
      if Ascii.eqb c "_"%char then
        if after_digit then digits acc false s' else None
      else
        match digit_value c with
        | Some d => digits (10 * acc + d)%Z true s'
        | None => None
        end
  end.

(** [int(text)] in base ten on ascii text: surrounding white space, an
    optional sign, then the digits. *)
Definition int_of_text (s : string) : option Z :=
  match strip (list_ascii_of_string s) with
  | c :: s' =>
      if Ascii.eqb c "-"%char then Z.opp <$> digits 0 false s'
      else if Ascii.eqb c "+"%char then digits 0 false s'
      else digits 0 false (c :: s')
  | [] => None
  end.

(** [int(value)]: [TypeError] for [None], [ValueError] for text that is
    not a number. *)
Definition py_int (value : pyval) : result Z :=
  match value with
  | PyNone => Raise TypeError
  | PyBool b => Ok (if b then 1 else 0)%Z
  | PyInt z => Ok z
  | PyStr s =>
      match int_of_text s with
      | Some z => Ok z
      | None => Raise ValueError
      end
  end.

(** ** class _Host

    An instance is its [__dict__].  Attribute names are the field names of
    the device's host list; the names bound on the class itself
    ([attributes], [_int_values], [_bool_values] and the special methods)
    never reach [__getattr__] and are not attribute names here. *)
Abbreviation host := (list (string * pyval)).

Definition _int_values : gset string :=
  {[ "Index"; "X_AVM-DE_Port"; "X_AVM-DE_Speed" ]}.

Definition _bool_values : gset string :=
  {[ "Active"; "X_AVM-DE_UpdateAvailable"; "X_AVM-DE_Guest"; "X_AVM-DE_VPN";
     "X_AVM-DE_Disallow" ]}.

(** [setattr(self, attr_name, value)] *)
Definition setattr (self : host) (attr_name : string) (value : pyval) : host :=
  od_set self attr_name value.

(** [__getattr__(self, attr_name)], called when the instance has no such
    attribute: it stores [None] under the name and reads the attribute
    again.  The result is the value and the instance afterwards. *)
Definition __getattr__ (self : host) (attr_name : string) : pyval * host :=
  let self' := setattr self attr_name PyNone in
  match od_get self' attr_name with
  | Some value => (value, self')
  | None => (PyNone, self')
  end.

(** [getattr(self, attr_name)]: the instance dictionary first, then
    [__getattr__]. *)
Definition getattr (self : host) (attr_name : string) : pyval * host :=
  match od_get self attr_name with
  | Some value => (value, self)
  | None => __getattr__ self attr_name
  end.

(** One turn of the loop of [attributes]: the value stored in [attrs]
    under [name]. *)
Definition convert (name : string) (value : pyval) : result pyval :=
  if bool_decide (name ∈ _int_values) then
    PyInt <$> py_int value
  else if bool_decide (name ∈ _bool_values) then
    (fun z => PyBool (negb (z =? 0)%Z)) <$> py_int value
  else Ok value.

Fixpoint attributes_loop (items : list (string * pyval)) (attrs : odict)
    : result odict :=
  match items with
  | [] => Ok attrs
  | (name, value) :: items' =>
      v ← convert name value;
      attributes_loop items' (od_set attrs name v)
  end.

(** The property [attributes]: the snapshot or the exception, and the
    instance afterwards. *)
Definition attributes (self : host) : result odict * host :=
  (attributes_loop self [], self).



(** Modelled from the spec: the decorator [processor] of [core.processor],
    which makes an instance callable on an xml node (section 4.2: for each
    immediate child element, the child's tag name is the attribute name and
    its text content the raw value, which is stored). *)
Definition text_value (node : xml_node) : pyval :=
  match node_text node with
  | Some s => PyStr s
  | None => PyNone
  end.

Definition process_node (self : host) (node : xml_node) : host :=
  fold_left (fun obj child => setattr obj (node_tag child) (text_value child))
            (node_children node) self.

(** ** class _HostStorage *)

(** Modelled from the spec: [Storage] and [InstanceAttributeFactory] of
    [core.processor] (section 4.3: every node with the one repeatable tag,
    here [Item], gets one fresh [_Host], appended to the storage list in
    document order and filled from the node; other nodes are passed
    over). *)
Definition storage_visit (_hosts : list host) (node : xml_node) : list host :=
  if String.eqb (node_tag node) "Item" then _hosts ++ [process_node [] node]
  else _hosts.

(** [_HostStorage(root)]: the list [self._hosts] after [__init__]. *)
Definition _HostStorage (root : xml_node) : list host :=
  fold_left storage_visit (node_children root) [].

(** The property [hosts_attributes]:
    [[host.attributes for host in self._hosts]]. *)
Fixpoint hosts_attributes (_hosts : list host) : result (list odict) :=
  match _hosts with
  | [] => Ok []
  | h :: rest =>
      attrs ← fst (attributes h);
      others ← hosts_attributes rest;
      Ok (attrs :: others)
  end.

(** ** class FritzHosts *)

Definition SERVICE : string := "Hosts1".

Section FritzHosts.
Context {J : Type}.
Variable fc : FritzConnection J.

(** [_action(actionname, *, arguments=None, **kwargs)] *)
Definition _action (actionname : string) (arguments : option dict)
    (kwargs : dict) : result dict :=
  call_action fc SERVICE actionname arguments kwargs.

(** [get_generic_host_entry(index)] *)
Definition get_generic_host_entry (index : nat) : result dict :=
  _action "GetGenericHostEntry" None {[ "NewIndex" := PyInt (Z.of_nat index) ]}.

(** [entries] is the host table from [start] on: the fetch succeeds at
    the indices [start], [start + 1], ... with these entries. *)
Definition fetched_from (start : nat) (entries : list dict) : Prop :=
  forall i host, entries !! i = Some host ->
                 get_generic_host_entry (start + i) = Ok host.

(** [get_specific_host_entry(mac_address)] *)
Definition get_specific_host_entry (mac_address : pyval) : result dict :=
  _action "GetSpecificHostEntry" None {[ "NewMACAddress" := mac_address ]}.

(** *** get_generic_host_entries: a generator

    The generator object is its position in [itertools.count()], or
    exhausted.  One [next()] fetches the entry at the position and yields
    it; an [IndexError] leaves the loop, so the generator stops; any
    other exception leaves the generator frame and reaches the caller. *)
Inductive generator : Type :=
| Suspended (index : nat)
| Exhausted.

Inductive signal : Type :=
| Yield (host : dict)
| StopIteration
| Propagate (e : exn).

Definition next (g : generator) : signal * generator :=
  match g with
  | Exhausted => (StopIteration, Exhausted)
  | Suspended index =>
      match get_generic_host_entry index with
      | Ok host => (Yield host, Suspended (S index))
      | Raise e =>
          if is_index_error e then (StopIteration, Exhausted)
          else (Propagate e, Exhausted)
      end
  end.

Definition get_generic_host_entries : generator := Suspended 0.

(** How a consumer's [for] loop over the generator ends. *)
Inductive ending : Type :=
| Finished
| Aborted (e : exn)
| Pending (g : generator).

(** [for host in g: ...] for at most [fuel] calls of [next()]: the
    entries yielded, and how the iteration ended. *)
Fixpoint iterate (fuel : nat) (g : generator) : list dict * ending :=
  match fuel with
  | O => ([], Pending g)
  | S fuel' =>
      match next g with
      | (Yield host, g') =>
          let (hosts, e) := iterate fuel' g' in (host :: hosts, e)
      | (StopIteration, _) => ([], Finished)
      | (Propagate e, _) => ([], Aborted e)
      end
  end.

(** *** get_hosts_info *)

(** The dictionary literal of [get_hosts_info]: the seven subscripts are
    evaluated in the order written. *)
Definition host_info (host : dict) : result dict :=
  ip ← subscript host "NewIPAddress";
  name ← subscript host "NewHostName";
  mac ← subscript host "NewMACAddress";
  status ← subscript host "NewActive";
  interface_type ← subscript host "NewInterfaceType";
  address_source ← subscript host "NewAddressSource";
  lease_time_remaining ← subscript host "NewLeaseTimeRemaining";
  Ok (<[ "lease_time_remaining" := lease_time_remaining ]>
      (<[ "address_source" := address_source ]>
      (<[ "interface_type" := interface_type ]>
      (<[ "status" := status ]>
      (<[ "mac" := mac ]>
      (<[ "name" := name ]>
      (<[ "ip" := ip ]> (∅ : dict)))))))).

(** How the frame of [get_hosts_info] is left: by [return result], or by
    an exception, with the list [result] as it stood then. *)
Inductive loop_end : Type :=
| Returned (result : list dict)
| Raised (e : exn) (result : list dict).

(** The loop [for index in itertools.count()] of [get_hosts_info], from
    [index] on with [result] collected so far.  Only the fetch is inside
    the [try]; the dictionary literal is not. *)
Fixpoint hosts_info_loop (fuel : nat) (index : nat) (result : list dict)
    : option loop_end :=
  match fuel with
  | O => None
  | S fuel' =>
      match get_generic_host_entry index with
      | Raise e =>
          if is_index_error e then Some (Returned result)
          else Some (Raised e result)
      | Ok host =>
          match host_info host with
          | Raise e => Some (Raised e result)
          | Ok info => hosts_info_loop fuel' (S index) (result ++ [info])
          end
      end
  end.

Definition outcome (l : loop_end) : result (list dict) :=
  match l with
  | Returned result => Ok result
  | Raised e _ => Raise e
  end.

(** [get_hosts_info()]; [None] when the fuel does not reach the end of
    the host table. *)
Definition get_hosts_info (fuel : nat) : option (result (list dict)) :=
  outcome <$> hosts_info_loop fuel 0 [].

(** *** get_active_hosts *)

(** The condition [host["status"]] of the comprehension, on a record
    that has the key. *)
Definition is_active (host : dict) : bool :=
  match host !! "status" with
  | Some status => truthy status
  | None => false
  end.

(** [[host for host in hosts if host["status"]]] *)
Fixpoint active_filter (hosts : list dict) : result (list dict) :=
  match hosts with
  | [] => Ok []
  | host :: rest =>
      status ← subscript host "status";
      others ← active_filter rest;
      Ok (if truthy status then host :: others else others)
  end.

Definition get_active_hosts (fuel : nat) : option (result (list dict)) :=
  (fun info => hosts ← info; active_filter hosts) <$> get_hosts_info fuel.

(** *** get_host_status *)

Definition get_host_status (mac_address : pyval) : result pyval :=
  match get_specific_host_entry mac_address with
  | Raise e =>
      if is_argument_or_lookup_error e then Ok PyNone else Raise e
  | Ok result => subscript result "NewActive"
  end.

(** *** get_mesh_topology *)

(** What [get_mesh_topology] returns: [response.text] or
    [response.json()]. *)
Inductive topology : Type :=
| Text (body : string)
| Json (data : J).

Definition topology_error (code : Z) : string :=
  "Error " +:+ str_of_int code +:+
  ": Device has no access to topology information.".

Definition get_mesh_topology (raw : bool) : result topology :=
  result ← _action "X_AVM-DE_GetMeshListPath" None ∅;
  path ← subscript result "NewX_AVM-DE_MeshListPath";
  let url := address fc +:+ ":" +:+ str_of_int (port fc) +:+ py_str path in
  response ← session_get fc url;
  if negb (ok response) then
    Raise (FritzActionError (topology_error (status_code response)))
  else if raw then Ok (Text (text response))
  else Json <$> json response.

(** *** get_hosts_attributes *)

Definition get_hosts_attributes : result (list odict) :=
  result ← _action "X_AVM-DE_GetHostListPath" None ∅;
  url ← subscript result "NewX_AVM-DE_HostListPath";
  root ← get_xml_root fc url;
  hosts_attributes (_HostStorage root).

(** *** get_host_name *)

(** [get_host_name(mac_address)] *)
Definition get_host_name (mac_address : pyval) : result pyval :=
  result ← get_specific_host_entry mac_address;
  subscript result "NewHostName".

End FritzHosts.


(** ** Example devices and documents *)

(** A complete entry of the host table, as [GetGenericHostEntry] and
    [GetSpecificHostEntry] return it. *)
Definition entry (ip name mac : string) (active : bool) : dict :=
  <[ "NewIPAddress" := PyStr ip ]>
  (<[ "NewHostName" := PyStr name ]>
  (<[ "NewMACAddress" := PyStr mac ]>
  (<[ "NewActive" := PyBool active ]>
  (<[ "NewInterfaceType" := PyStr "Ethernet" ]>
  (<[ "NewAddressSource" := PyStr "DHCP" ]>
  (<[ "NewLeaseTimeRemaining" := PyInt 3600 ]> ∅)))))).

Definition has_mac (mac : pyval) (host : dict) : bool :=
  bool_decide (host !! "NewMACAddress" = Some mac).

(** A device answering from a host table, with one http response and one
    xml document. *)
Definition device_action (table : list dict) (actionname : string)
    (kwargs : dict) : result dict :=
  if String.eqb actionname "GetGenericHostEntry" then
    match kwargs !! "NewIndex" with
    | Some (PyInt z) =>
        if (z <? 0)%Z then Raise (FritzArgumentError "NewIndex")
        else match table !! Z.to_nat z with
             | Some host => Ok host
             | None => Raise (IndexError "SpecifiedArrayIndexInvalid")
             end
    | _ => Raise (FritzArgumentError "NewIndex")
    end
  else if String.eqb actionname "GetSpecificHostEntry" then
    match kwargs !! "NewMACAddress" with
    | Some (PyStr mac) =>
        match List.find (has_mac (PyStr mac)) table with
        | Some host => Ok host
        | None => Raise (FritzLookUpError "NoSuchEntryInArray")
        end
    | _ => Raise (FritzArgumentError "NewMACAddress")
    end
  else if String.eqb actionname "X_AVM-DE_GetMeshListPath" then
    Ok {[ "NewX_AVM-DE_MeshListPath" := PyStr "/meshlist.lua?sid=1" ]}
  else if String.eqb actionname "X_AVM-DE_GetHostListPath" then
    Ok {[ "NewX_AVM-DE_HostListPath" := PyStr "/devicehostlist.lua?sid=1" ]}
  else Raise (FritzActionError actionname).

Definition device (table : list dict) (reply : response (list string))
    (root : xml_node) : FritzConnection (list string) := {|
  call_action := fun _ actionname _ kwargs => device_action table actionname kwargs;
  address := "http://192.168.178.1";
  port := 49000;
  session_get := fun _ => Ok reply;
  get_xml_root := fun _ => Ok root
|}.

Definition reply_200 : response (list string) :=
  {| status_code := 200; text := "[]"; json := Ok [] |}.

Definition reply_500 : response (list string) :=
  {| status_code := 500; text := "Internal Server Error"; json := Raise ValueError |}.

Definition empty_document : xml_node := Node "List" None [].

Definition two_hosts : list dict :=
  [ entry "192.168.178.20" "nas" "AA:BB:CC:00:00:01" true;
    entry "192.168.178.21" "printer" "AA:BB:CC:00:00:02" false ].

Definition example_device : FritzConnection (list string) :=
  device two_hosts reply_200 empty_document.


(** A device that answers every index of the host table and never signals
    its end. *)
Definition endless_device : FritzConnection (list string) := {|
  call_action := fun _ _ _ _ =>
    Ok (entry "192.168.178.20" "nas" "AA:BB:CC:00:00:01" true);
  address := "http://192.168.178.1";
  port := 49000;
  session_get := fun _ => Ok reply_200;
  get_xml_root := fun _ => Ok empty_document
|}.

(** The seven public keys of a record of [get_hosts_info]. *)
Definition info_keys : gset string :=
  {[ "ip"; "name"; "mac"; "status"; "interface_type"; "address_source";
     "lease_time_remaining" ]}.

(** An attribute that [attributes] can convert. *)
Definition convertible (kv : string * pyval) : Prop :=
  exists v, convert kv.1 kv.2 = Ok v.

(** An entry whose [NewActive] field the device left out. *)
Definition entry_without_status : dict :=
  delete "NewActive" (entry "192.168.178.22" "camera" "AA:BB:CC:00:00:03" true).

Definition status_less_device : FritzConnection (list string) :=
  device [entry_without_status] reply_200 empty_document.


(** The seven fields of an entry that [get_hosts_info] reads. *)
Definition info_fields : list string :=
  [ "NewIPAddress"; "NewHostName"; "NewMACAddress"; "NewActive";
    "NewInterfaceType"; "NewAddressSource"; "NewLeaseTimeRemaining" ].

Definition is_host_entry (host : dict) : Prop :=
  Forall (fun key => is_Some (host !! key)) info_fields.

(** A record of [get_hosts_info] has the key [status]. *)
Definition has_status (info : dict) : Prop := is_Some (info !! "status").

(** The nodes of a document that [_HostStorage] turns into hosts. *)
Definition item_nodes (root : xml_node) : list xml_node :=
  List.filter (fun node => String.eqb (node_tag node) "Item") (node_children root).


(** What a caller does with a host: read an attribute, or take the
    snapshot; and what it gets back. *)
Inductive access : Type :=
| Read (attr_name : string)
| Snapshot.

Inductive observed : Type :=
| Value (value : pyval)
| Attributes (attrs : result odict).

Definition perform (self : host) (a : access) : observed * host :=
  match a with
  | Read attr_name => let (value, self') := getattr self attr_name in (Value value, self')
  | Snapshot => let (attrs, self') := attributes self in (Attributes attrs, self')
  end.

(** A sequence of accesses on the same instance. *)
Fixpoint run (self : host) (accesses : list access) : list observed * host :=
  match accesses with
  | [] => ([], self)
  | a :: rest =>
      let (o, self') := perform self a in
      let (os, self'') := run self' rest in
      (o :: os, self'')
  end.

(** A host item of the xml feed, and the same item with a boolean field
    that is not a number. *)
Definition item_node : xml_node :=
  Node "Item" None
    [ Node "Index" (Some "1") [];
      Node "IPAddress" (Some "192.168.178.20") [];
      Node "MACAddress" (Some "AA:BB:CC:00:00:01") [];
      Node "Active" (Some "1") [];
      Node "HostName" (Some "nas") [];
      Node "X_AVM-DE_Guest" (Some "0") [] ].


Definition host_document : xml_node :=
  Node "List" None [ item_node; Node "Comment" (Some "x") []; item_node; item_node ].

(** * Properties *)

(** ** The dictionary literal of get_hosts_info *)

Lemma subscript_Ok (d : dict) key v : subscript d key = Ok v <-> d !! key = Some v.
Proof.
  unfold subscript. destruct (d !! key); split; intros H; congruence.
Qed.

Lemma host_info_total (host : dict) :
  is_host_entry host -> exists info, host_info host = Ok info.
Proof.
  unfold is_host_entry, info_fields. intros H.
  repeat (apply Forall_cons_1 in H; simpl in H; destruct H as [[? ?] H]).
  unfold host_info, subscript.
  repeat match goal with E : host !! _ = Some _ |- _ => rewrite E; clear E end.
  simpl. eauto.
Qed.

(** The record copies the seven fields under their public names. *)
Lemma host_info_fields (host info : dict) :
  host_info host = Ok info ->
  info !! "ip" = host !! "NewIPAddress" /\
  info !! "name" = host !! "NewHostName" /\
  info !! "mac" = host !! "NewMACAddress" /\
  info !! "status" = host !! "NewActive" /\
  info !! "interface_type" = host !! "NewInterfaceType" /\
  info !! "address_source" = host !! "NewAddressSource" /\
  info !! "lease_time_remaining" = host !! "NewLeaseTimeRemaining" /\
  is_Some (info !! "status").
Proof.
  unfold host_info, subscript.
  repeat match goal with
         | |- context [host !! ?k] => destruct (host !! k) eqn:?; simpl; [| discriminate]
         end.
  intros [= <-]. repeat split; try reflexivity. eexists. reflexivity.
Qed.

Section FritzHostsProperties.
Context {J : Type} (fc : FritzConnection J).

Lemma fetched_from_cons start host entries :
  fetched_from fc start (host :: entries) ->
  get_generic_host_entry fc start = Ok host /\ fetched_from fc (S start) entries.
Proof.
  intros H. split.
  - specialize (H 0%nat host eq_refl). by rewrite Nat.add_0_r in H.
  - intros i h Hi. specialize (H (S i) h Hi).
    by replace (S start + i)%nat with (start + S i)%nat by lia.
Qed.



(** The loop of [get_hosts_info] appends one record per entry of the
    table and goes on behind it. *)
Lemma hosts_info_loop_prefix entries : forall infos start fuel acc,
  fetched_from fc start entries ->
  Forall2 (fun host info => host_info host = Ok info) entries infos ->
  hosts_info_loop fc (length entries + fuel) start acc
  = hosts_info_loop fc fuel (start + length entries) (acc ++ infos).
Proof.
  induction entries as [| host entries IH]; intros infos start fuel acc Hf Hinfo.
  - apply Forall2_nil_inv_l in Hinfo as ->.
    simpl. by rewrite Nat.add_0_r, app_nil_r.
  - apply Forall2_cons_inv_l in Hinfo as (info & infos' & Hi & Hrest & ->).
    apply fetched_from_cons in Hf as [H0 Hf].
    cbn [length Nat.add hosts_info_loop]. rewrite H0, Hi.
    rewrite (IH infos' (S start) fuel (acc ++ [info]) Hf Hrest).
    f_equal; [simpl; lia | by rewrite <- app_assoc].
Qed.


(** An entry behind the table whose record cannot be built ends the loop
    with the exception of the dictionary literal. *)
Lemma hosts_info_loop_broken entries infos start host e fuel acc :
  fetched_from fc start entries ->
  Forall2 (fun host info => host_info host = Ok info) entries infos ->
  get_generic_host_entry fc (start + length entries) = Ok host ->
  host_info host = Raise e ->
  (length entries < fuel)%nat ->
  hosts_info_loop fc fuel start acc = Some (Raised e (acc ++ infos)).
Proof.
  intros Hf Hinfo Hh He Hfuel.
  replace fuel with (length entries + S (fuel - S (length entries)))%nat by lia.
  rewrite (hosts_info_loop_prefix entries infos start _ acc Hf Hinfo).
  cbn [hosts_info_loop]. by rewrite Hh, He.
Qed.

Lemma host_infos_total entries :
  Forall is_host_entry entries ->
  exists infos, Forall2 (fun host info => host_info host = Ok info) entries infos.
Proof.
  induction 1 as [| host entries Hh _ [infos IH]].
  - exists []. constructor.
  - destruct (host_info_total host Hh) as [info Hi].
    exists (info :: infos). by constructor.
Qed.



(** *** get_active_hosts *)

(** Every record that [get_hosts_info] collects has the key [status]. *)
Lemma hosts_info_loop_has_status fuel : forall index acc,
  Forall has_status acc ->
  match hosts_info_loop fc fuel index acc with
  | Some (Returned infos) | Some (Raised _ infos) => Forall has_status infos
  | None => True
  end.
Proof.
  induction fuel as [| fuel IH]; intros index acc Hacc; [done |].
  cbn [hosts_info_loop].
  destruct (get_generic_host_entry fc index) as [host | e].
  - destruct (host_info host) as [info | e] eqn:Hi; [| done].
    apply IH. apply Forall_app. split; [done |].
    apply Forall_singleton. by apply host_info_fields in Hi as (_&_&_&_&_&_&_&?).
  - by destruct (is_index_error e).
Qed.

Lemma get_hosts_info_has_status fuel infos :
  get_hosts_info fc fuel = Some (Ok infos) -> Forall has_status infos.
Proof.
  unfold get_hosts_info. intros H.
  pose proof (hosts_info_loop_has_status fuel 0 [] (Forall_nil_2 _)) as Hs.
  destruct (hosts_info_loop fc fuel 0 []) as [[r | e r] |]; simpl in H;
    [| discriminate | discriminate].
  by injection H as <-.
Qed.

(** On records that have the key, the comprehension is a filter. *)
Lemma active_filter_filter (infos : list dict) :
  Forall has_status infos ->
  active_filter infos = Ok (List.filter is_active infos).
Proof.
  induction 1 as [| info infos [status Hs] _ IH]; [done |].
  cbn [active_filter List.filter]. unfold subscript, is_active.
  rewrite Hs, IH. simpl. by destruct (truthy status).
Qed.

Lemma filter_is_sublist {A} (f : A -> bool) (l : list A) :
  sublist (List.filter f l) l.
Proof.
  induction l as [| x l IH]; simpl; [constructor |].
  destruct (f x); by constructor.
Qed.

(** C3, as amended.  Whenever [get_hosts_info] returns, [get_active_hosts]
    returns, without error, exactly those of its records whose status is
    truthy, in the same order: the result is a sublist, every member has
    a truthy status, and every record whose status is [False] or the
    unset value [None] is left out.  Whenever [get_hosts_info] raises,
    [get_active_hosts] raises the same exception; this is what happens
    for an entry without the field [NewActive], which ends both with
    [KeyError]. *)
Theorem active_hosts_are_the_truthy_records (fuel : nat) :
  (forall infos,
      get_hosts_info fc fuel = Some (Ok infos) ->
      get_active_hosts fc fuel = Some (Ok (List.filter is_active infos))
      /\ sublist (List.filter is_active infos) infos
      /\ (forall info, info ∈ List.filter is_active infos ->
            info ∈ infos
            /\ exists status, info !! "status" = Some status
                              /\ truthy status = true)
      /\ (forall info, info ∈ infos ->
            info !! "status" = Some (PyBool false)
            \/ info !! "status" = Some PyNone ->
            info ∉ List.filter is_active infos))
  /\ (forall e,
        get_hosts_info fc fuel = Some (Raise e) ->
        get_active_hosts fc fuel = Some (Raise e))
  /\ (forall entries host,
        fetched_from fc 0 entries ->
        Forall is_host_entry entries ->
        get_generic_host_entry fc (length entries) = Ok host ->
        is_Some (host !! "NewIPAddress") ->
        is_Some (host !! "NewHostName") ->
        is_Some (host !! "NewMACAddress") ->
        host !! "NewActive" = None ->
        (length entries < fuel)%nat ->
        get_hosts_info fc fuel = Some (Raise (KeyError "NewActive"))
        /\ get_active_hosts fc fuel = Some (Raise (KeyError "NewActive"))).
Proof.
  split; [| split].
  - intros infos Hinfo.
    pose proof (get_hosts_info_has_status fuel infos Hinfo) as Hs.
    repeat split.
    + unfold get_active_hosts. rewrite Hinfo. simpl.
      by rewrite active_filter_filter.
    + apply filter_is_sublist.
    + apply list_elem_of_In, filter_In in H as [H _].
      by apply list_elem_of_In.
    + apply list_elem_of_In, filter_In in H as [_ H].
      unfold is_active in H. destruct (info !! "status") as [status |]; [| done].
      by exists status.
    + intros info Hin Hfalse Hmem.
      apply list_elem_of_In, filter_In in Hmem as [_ Hact].
      unfold is_active in Hact.
      destruct Hfalse as [Hf | Hf]; rewrite Hf in Hact; discriminate.
  - intros e He. unfold get_active_hosts. by rewrite He.
  - intros entries host Hf Hwf Hh [ip Hip] [name Hname] [mac Hmac] Hnone Hfuel.
    destruct (host_infos_total entries Hwf) as [infos Hinfos].
    assert (host_info host = Raise (KeyError "NewActive")) as Hbroken.
    { unfold host_info, subscript. by rewrite Hip, Hname, Hmac, Hnone. }
    assert (get_hosts_info fc fuel = Some (Raise (KeyError "NewActive"))) as H.
    { unfold get_hosts_info.
      by rewrite (hosts_info_loop_broken entries infos 0 host
                    (KeyError "NewActive") fuel []). }
    split; [done |]. unfold get_active_hosts. by rewrite H.
Qed.

(** *** get_host_status *)

(** C4.  For a lookup whose successful results carry the boolean flag
    [NewActive]: [get_host_status] returns [None], and raises nothing,
    exactly when the lookup by MAC address raises a
    [FritzArgumentError] or a [FritzLookUpError]; when the lookup
    succeeds it returns the flag of the result; every other exception of
    the lookup leaves [get_host_status] unchanged. *)
Theorem host_status_none_or_flag (mac_address : pyval) :
  (forall result, get_specific_host_entry fc mac_address = Ok result ->
                  exists b, result !! "NewActive" = Some (PyBool b)) ->
  (get_host_status fc mac_address = Ok PyNone
   <-> exists e, get_specific_host_entry fc mac_address = Raise e
                 /\ is_argument_or_lookup_error e = true)
  /\ (forall result b,
        get_specific_host_entry fc mac_address = Ok result ->
        result !! "NewActive" = Some (PyBool b) ->
        get_host_status fc mac_address = Ok (PyBool b))
  /\ (forall e,
        get_specific_host_entry fc mac_address = Raise e ->
        is_argument_or_lookup_error e = false ->
        get_host_status fc mac_address = Raise e).
Proof.
  intros Hflag. unfold get_host_status.
  destruct (get_specific_host_entry fc mac_address) as [result | e] eqn:Hl.
  - destruct (Hflag result eq_refl) as [b Hb]. unfold subscript. rewrite Hb.
    repeat split.
    + discriminate.
    + intros (e & He & _). discriminate.
    + intros result' b' [= <-] Hb'. congruence.
    + discriminate.
  - repeat split.
    + intros H. exists e. split; [done |].
      destruct (is_argument_or_lookup_error e); [done | discriminate].
    + intros (e' & [= <-] & ->). done.
    + discriminate.
    + intros e' [= <-] ->. done.
Qed.

(** *** get_mesh_topology *)

(** C7.  Once the path is fetched and the session has answered: a
    response that is not ok (as one with status 500) makes
    [get_mesh_topology] raise, for either value of [raw], a
    [FritzActionError] whose message contains the status code; an ok
    response (as one with status 200) gives the body text for
    [raw=True] and the decoded json for [raw=False]. *)
Theorem mesh_topology_by_response (result : dict) (path : pyval)
    (reply : response J) :
  _action fc "X_AVM-DE_GetMeshListPath" None ∅ = Ok result ->
  result !! "NewX_AVM-DE_MeshListPath" = Some path ->
  session_get fc (address fc +:+ ":" +:+ str_of_int (port fc) +:+ py_str path)
  = Ok reply ->
  (ok reply = false ->
     (forall raw,
        get_mesh_topology fc raw
        = Raise (FritzActionError (topology_error (status_code reply))))
     /\ exists before after,
          topology_error (status_code reply)
          = before +:+ str_of_int (status_code reply) +:+ after)
  /\ (status_code reply = 500%Z ->
      get_mesh_topology fc false
      = Raise (FritzActionError
                 "Error 500: Device has no access to topology information."))
  /\ (ok reply = true ->
      get_mesh_topology fc true = Ok (Text (text reply))
      /\ get_mesh_topology fc false = Json <$> json reply)
  /\ (status_code reply = 200%Z -> ok reply = true).
Proof.
  intros Hact Hpath Hget.
  assert (forall raw,
             get_mesh_topology fc raw
             = if negb (ok reply)
               then Raise (FritzActionError (topology_error (status_code reply)))
               else if raw then Ok (Text (text reply))
                    else Json <$> json reply) as Hrun.
  { intros raw. unfold get_mesh_topology, subscript.
    rewrite Hact. simpl. rewrite Hpath. simpl. by rewrite Hget. }
  repeat split.
  - intros raw. rewrite Hrun. by rewrite H.
  - by exists "Error ", ": Device has no access to topology information.".
  - intros H500. rewrite Hrun. unfold ok. by rewrite H500.
  - rewrite Hrun. by rewrite H.
  - rewrite Hrun. by rewrite H.
  - intros H200. unfold ok. by rewrite H200.
Qed.

End FritzHostsProperties.

(** ** Insertion-ordered dictionaries *)

Lemma od_get_app (d1 d2 : odict) key :
  od_get (d1 ++ d2) key
  = match od_get d1 key with Some v => Some v | None => od_get d2 key end.
Proof.
  induction d1 as [| [k v] d1 IH]; simpl; [done |].
  by destruct (String.eqb k key).
Qed.

Lemma od_get_set_eq (d : odict) key value :
  od_get (od_set d key value) key = Some value.
Proof.
  induction d as [| [k v] d IH]; simpl.
  - by rewrite String.eqb_refl.
  - destruct (String.eqb k key) eqn:E; simpl; rewrite E; [| done].
    done.
Qed.

Lemma od_get_set_ne (d : odict) key key' value :
  key <> key' -> od_get (od_set d key value) key' = od_get d key'.
Proof.
  intros Hne. induction d as [| [k v] d IH]; simpl.
  - by apply String.eqb_neq in Hne as ->.
  - destruct (String.eqb k key) eqn:E; simpl; [| by rewrite IH].
    apply String.eqb_eq in E as ->. by apply String.eqb_neq in Hne as ->.
Qed.

(** Setting a key that is not there appends it. *)
Lemma od_set_absent (d : odict) key value :
  od_get d key = None -> od_set d key value = d ++ [(key, value)].
Proof.
  induction d as [| [k v] d IH]; simpl; [done |].
  destruct (String.eqb k key); [discriminate |]. intros H. by rewrite IH.
Qed.


Lemma od_get_None_keys (d : odict) key :
  od_get d key = None <-> ~ In key (od_keys d).
Proof.
  induction d as [| [k v] d IH]; simpl; [tauto |].
  destruct (String.eqb k key) eqn:E.
  - apply String.eqb_eq in E as ->. split; [discriminate | tauto].
  - apply String.eqb_neq in E. rewrite IH. tauto.
Qed.


Lemma od_keys_rev (d : odict) : od_keys (rev d) = rev (od_keys d).
Proof. unfold od_keys. by rewrite map_rev. Qed.

Lemma od_get_rev_None (d : odict) key :
  od_get d key = None <-> od_get (rev d) key = None.
Proof.
  rewrite !od_get_None_keys, od_keys_rev. by rewrite <- in_rev.
Qed.

Lemma od_get_rev_is_Some (d : odict) key :
  is_Some (od_get d key) -> is_Some (od_get (rev d) key).
Proof.
  rewrite <- !not_eq_None_Some. intros H Hr. by apply H, od_get_rev_None.
Qed.

(** ** The conversion of one attribute *)


Lemma convert_int name value :
  name ∈ _int_values -> convert name value = PyInt <$> py_int value.
Proof. intros H. unfold convert. by rewrite bool_decide_eq_true_2. Qed.





(** ** The loop of attributes *)




(** What a snapshot holds under a key: the conversion of the value last
    stored under it. *)
Lemma attributes_loop_get items : forall acc attrs key,
  attributes_loop items acc = Ok attrs ->
  match od_get (rev items) key with
  | Some raw => exists v, convert key raw = Ok v /\ od_get attrs key = Some v
  | None => od_get attrs key = od_get acc key
  end.
Proof.
  induction items as [| [name value] items IH]; intros acc attrs key Hrun.
  - simpl in *. by injection Hrun as ->.
  - simpl in Hrun. destruct (convert name value) as [v |] eqn:Hc; [| done].
    simpl in Hrun. specialize (IH _ _ key Hrun).
    simpl. rewrite od_get_app.
    destruct (od_get (rev items) key) as [raw |]; [done |].
    simpl. destruct (String.eqb name key) eqn:E.
    + apply String.eqb_eq in E as ->. exists v. split; [done |].
      by rewrite IH, od_get_set_eq.
    + apply String.eqb_neq in E. by rewrite IH, od_get_set_ne.
Qed.

(** ** Hosts built from xml nodes *)


Lemma process_node_fold_absent children name : forall self,
  od_get self name = None ->
  ~ In name (map node_tag children) ->
  od_get (fold_left (fun obj child => setattr obj (node_tag child) (text_value child))
                    children self) name = None.
Proof.
  induction children as [| child children IH]; intros self Hs Hn; [done |].
  simpl in *. apply IH; [| tauto].
  unfold setattr. rewrite od_get_set_ne; [done | tauto].
Qed.

(** A name that is no child tag of the node is not set on its host. *)
Lemma absent_tag_is_unset node name :
  ~ In name (map node_tag (node_children node)) ->
  od_get (process_node [] node) name = None.
Proof. intros H. by apply process_node_fold_absent. Qed.

(** ** The storage of hosts *)

Lemma storage_fold nodes : forall acc,
  fold_left storage_visit nodes acc
  = acc ++ map (process_node [])
             (List.filter (fun node => String.eqb (node_tag node) "Item") nodes).
Proof.
  induction nodes as [| node nodes IH]; intros acc; simpl.
  - by rewrite app_nil_r.
  - rewrite IH. unfold storage_visit.
    destruct (String.eqb (node_tag node) "Item"); [| done].
    by rewrite <- app_assoc.
Qed.

Lemma hosts_attributes_Forall2 hosts records :
  hosts_attributes hosts = Ok records
  <-> Forall2 (fun h attrs => fst (attributes h) = Ok attrs) hosts records.
Proof.
  revert records. induction hosts as [| h hosts IH]; intros records; simpl.
  - split.
    + intros [= <-]. constructor.
    + intros H. by apply Forall2_nil_inv_l in H as ->.
  - split.
    + destruct (attributes_loop h []) as [attrs |] eqn:Ha; [| done]. simpl.
      destruct (hosts_attributes hosts) as [others |]; [| done]. simpl.
      intros [= <-]. constructor; [done | by apply IH].
    + intros H. apply Forall2_cons_inv_l in H as (attrs & others & Ha & Ho & ->).
      simpl in Ha. rewrite Ha. simpl. apply IH in Ho. by rewrite Ho.
Qed.

(** ** class _Host: conversion, defaults and reads *)

(** A read of a name that is not set stores [None] behind the attributes
    already there and returns it. *)
Lemma getattr_unset (self : host) name :
  od_get self name = None ->
  getattr self name = (PyNone, self ++ [(name, PyNone)]).
Proof.
  intros Hnone. unfold getattr, __getattr__, setattr. rewrite Hnone.
  by rewrite od_get_set_eq, od_set_absent.
Qed.



(** C8.  Taking the snapshot leaves the instance as it was, so a second
    snapshot is equal to the first: every populated attribute is in both,
    with the same converted value, and its raw value is still the one
    stored before. *)
Theorem attributes_is_idempotent (self : host) (name : string) (raw : pyval) :
  od_get self name = Some raw ->
  snd (attributes self) = self
  /\ run self [Snapshot; Snapshot]
     = ([Attributes (fst (attributes self)); Attributes (fst (attributes self))],
        self)
  /\ od_get (snd (run self [Snapshot; Snapshot])) name = Some raw
  /\ (forall first second,
        fst (attributes self) = Ok first ->
        fst (attributes (snd (attributes self))) = Ok second ->
        is_Some (od_get first name)
        /\ od_get second name = od_get first name).
Proof.
  intros Hraw. repeat split; try done.
  - destruct (od_get_rev_is_Some self name) as [raw' Hrev]; [by eexists |].
    simpl in H. pose proof (attributes_loop_get self [] first name H) as Hg.
    rewrite Hrev in Hg. destruct Hg as (v & _ & ->). by eexists.
  - simpl in *. congruence.
Qed.




(** ** class _HostStorage and get_hosts_attributes *)

Section HostList.
Context {J : Type} (fc : FritzConnection J).

(** C9.  The storage holds one host per [Item] node of the document, in
    document order, none left out and none merged.  For a document without
    [Item] nodes [hosts_attributes], and with it [get_hosts_attributes],
    returns the empty list and raises nothing; otherwise it returns, when
    every host converts, one snapshot per node in that order. *)
Theorem host_storage_one_record_per_item (root : xml_node) :
  _HostStorage root = map (process_node []) (item_nodes root)
  /\ length (_HostStorage root) = length (item_nodes root)
  /\ (item_nodes root = [] -> hosts_attributes (_HostStorage root) = Ok [])
  /\ (forall records,
        hosts_attributes (_HostStorage root) = Ok records
        <-> Forall2 (fun node attrs =>
                       fst (attributes (process_node [] node)) = Ok attrs)
                    (item_nodes root) records)
  /\ (forall result url,
        _action fc "X_AVM-DE_GetHostListPath" None ∅ = Ok result ->
        result !! "NewX_AVM-DE_HostListPath" = Some url ->
        get_xml_root fc url = Ok root ->
        get_hosts_attributes fc = hosts_attributes (_HostStorage root)
        /\ (item_nodes root = [] -> get_hosts_attributes fc = Ok [])).
Proof.
  assert (_HostStorage root = map (process_node []) (item_nodes root)) as Hs.
  { unfold _HostStorage, item_nodes. by rewrite storage_fold. }
  split; [done |]. split; [by rewrite Hs, length_map |].
  split; [intros He; by rewrite Hs, He |].
  split.
  - intros records. rewrite hosts_attributes_Forall2, Hs.
    by rewrite Forall2_fmap_l.
  - intros result url Hact Hurl Hroot.
    assert (get_hosts_attributes fc = hosts_attributes (_HostStorage root)) as Hg.
    { unfold get_hosts_attributes, subscript. rewrite Hact. simpl.
      rewrite Hurl. simpl. by rewrite Hroot. }
    split; [done |]. intros He. by rewrite Hg, Hs, He.
Qed.

End HostList.

(** * The properties on example devices and documents *)







(** C3 as the specification states it does not hold: on a device whose only entry has no
    [NewActive] field the record is not left out as inactive;
    [get_active_hosts] raises [KeyError], whatever the fuel. *)
Lemma missing_status_raises_key_error :
  get_generic_host_entry status_less_device 0 = Ok entry_without_status
  /\ entry_without_status !! "NewActive" = None
  /\ get_hosts_info status_less_device 2 = Some (Raise (KeyError "NewActive"))
  /\ get_active_hosts status_less_device 2 = Some (Raise (KeyError "NewActive"))
  /\ forall fuel active, get_active_hosts status_less_device fuel <> Some (Ok active).
Proof.
  repeat split; try reflexivity.
  intros [| fuel] active H; [discriminate |].
  vm_compute in H. discriminate.
Qed.

(** Of the two hosts the active one is returned. *)
Lemma active_hosts_are_the_truthy_records_witness :
  exists infos,
    get_hosts_info example_device 3 = Some (Ok infos)
    /\ get_active_hosts example_device 3 = Some (Ok (List.filter is_active infos))
    /\ length (List.filter is_active infos) = 1%nat.
Proof.
  destruct (active_hosts_are_the_truthy_records example_device 3) as [H _].
  destruct (get_hosts_info example_device 3) as [[infos | e] |] eqn:E;
    [| discriminate E | discriminate E].
  exists infos. destruct (H infos eq_refl) as (Hact & _).
  split; [reflexivity |]. split; [exact Hact |].
  injection E as <-. reflexivity.
Defined.

(** The status of a known inactive host is [False]. *)
Lemma host_status_none_or_flag_witness :
  get_host_status example_device (PyStr "AA:BB:CC:00:00:02") = Ok (PyBool false).
Proof.
  destruct (host_status_none_or_flag example_device (PyStr "AA:BB:CC:00:00:02"))
    as (_ & Hflag & _).
  - intros result H. injection H as <-. exists false. reflexivity.
  - apply (Hflag (entry "192.168.178.21" "printer" "AA:BB:CC:00:00:02" false));
      reflexivity.
Defined.




(** Status 500: the action error with the code in its message. *)
Lemma mesh_topology_by_response_witness :
  get_mesh_topology (device two_hosts reply_500 empty_document) false
  = Raise (FritzActionError
             "Error 500: Device has no access to topology information.").
Proof.
  destruct (mesh_topology_by_response (device two_hosts reply_500 empty_document)
              {[ "NewX_AVM-DE_MeshListPath" := PyStr "/meshlist.lua?sid=1" ]}
              (PyStr "/meshlist.lua?sid=1") reply_500) as (_ & H & _).
  - reflexivity.
  - reflexivity.
  - reflexivity.
  - apply H. reflexivity.
Defined.

(** Two snapshots of a host with the field [Active]. *)
Lemma attributes_is_idempotent_witness :
  run (process_node [] item_node) [Snapshot; Snapshot]
  = ([Attributes (fst (attributes (process_node [] item_node)));
      Attributes (fst (attributes (process_node [] item_node)))],
     process_node [] item_node).
Proof.
  destruct (attributes_is_idempotent (process_node [] item_node) "Active"
              (PyStr "1")) as (_ & H & _).
  - reflexivity.
  - exact H.
Defined.

(** A document with three items and one other node. *)
Lemma host_storage_one_record_per_item_witness :
  length (_HostStorage host_document) = 3%nat
  /\ hosts_attributes (_HostStorage empty_document) = Ok [].
Proof.
  destruct (host_storage_one_record_per_item example_device host_document)
    as (_ & Hlen & _).
  destruct (host_storage_one_record_per_item example_device empty_document)
    as (_ & _ & Hempty & _).
  split; [rewrite Hlen; reflexivity | apply Hempty; reflexivity].
Defined.


(** * Further properties of the enumerations *)

Section EnumerationTraces.
Context {J : Type} (fc : FritzConnection J).

(** What an iteration over the generator tells about the device: the
    entries yielded are the fetches at consecutive indices, and the way the
    iteration ended is the outcome of the next fetch. *)
Lemma iterate_trace fuel : forall index entries ending,
  iterate fc fuel (Suspended index) = (entries, ending) ->
  fetched_from fc index entries
  /\ match ending with
     | Finished =>
         exists message,
           get_generic_host_entry fc (index + length entries)
           = Raise (IndexError message)
     | Aborted e =>
         get_generic_host_entry fc (index + length entries) = Raise e
         /\ is_index_error e = false
     | Pending g =>
         g = Suspended (index + length entries) /\ length entries = fuel
     end.
Proof.
  induction fuel as [| fuel IH]; intros index entries ending Hrun.
  - injection Hrun as <- <-. simpl. rewrite Nat.add_0_r.
    split; [intros i host H; by destruct i | done].
  - cbn [iterate next] in Hrun.
    destruct (get_generic_host_entry fc index) as [host | e] eqn:Hfetch.
    + destruct (iterate fc fuel (Suspended (S index))) as [hosts ending'] eqn:Hrest.
      injection Hrun as <- <-.
      destruct (IH (S index) hosts ending' Hrest) as [Hf Hend]. split.
      * intros [| i] h Hi; simpl in Hi.
        -- injection Hi as <-. by rewrite Nat.add_0_r.
        -- replace (index + S i)%nat with (S index + i)%nat by lia. by apply Hf.
      * simpl length.
        replace (index + S (length hosts))%nat
          with (S index + length hosts)%nat by lia.
        destruct ending'; [done | done |].
        destruct Hend as [-> ->]. done.
    + destruct (is_index_error e) eqn:He; injection Hrun as <- <-;
        simpl; rewrite Nat.add_0_r;
        (split; [intros i host H; by destruct i |]).
      * destruct e; try discriminate. by eexists.
      * done.
Qed.

(** X1.  The generator ends normally only on the out-of-range signal: if
    iterating [get_generic_host_entries] yields [entries] and finishes,
    these are the fetches at indices [0 .. n-1] and the fetch at index [n]
    raised [IndexError]; if it is aborted by [e], the fetch at index [n]
    raised [e], no [IndexError]; if the fuel ran out, exactly [fuel]
    entries were yielded and the generator waits at index [fuel]. *)
Theorem generator_trace (fuel : nat) (entries : list dict) (ending : ending) :
  iterate fc fuel get_generic_host_entries = (entries, ending) ->
  fetched_from fc 0 entries
  /\ match ending with
     | Finished =>
         exists message,
           get_generic_host_entry fc (length entries) = Raise (IndexError message)
     | Aborted e =>
         get_generic_host_entry fc (length entries) = Raise e
         /\ is_index_error e = false
     | Pending g => g = Suspended (length entries) /\ length entries = fuel
     end.
Proof. intros H. exact (iterate_trace fuel 0 entries ending H). Qed.

(** The loop of [get_hosts_info] against the generator from the same
    index. *)
Lemma hosts_info_loop_iterate fuel : forall index acc,
  outcome <$> hosts_info_loop fc fuel index acc
  = match mapM host_info (iterate fc fuel (Suspended index)).1 with
    | Raise e => Some (Raise e)
    | Ok infos =>
        match (iterate fc fuel (Suspended index)).2 with
        | Finished => Some (Ok (acc ++ infos))
        | Aborted e => Some (Raise e)
        | Pending _ => None
        end
    end.
Proof.
  induction fuel as [| fuel IH]; intros index acc; [done |].
  cbn [hosts_info_loop iterate next].
  destruct (get_generic_host_entry fc index) as [host | e].
  - specialize (IH (S index)).
    destruct (iterate fc fuel (Suspended (S index))) as [hosts ending'].
    cbn [fst snd mapM] in *.
    destruct (host_info host) as [info | e]; [| done].
    rewrite (IH (acc ++ [info])). simpl.
    destruct (mapM host_info hosts) as [infos |]; simpl; [| done].
    destruct ending'; try done. by rewrite <- app_assoc.
  - destruct (is_index_error e); simpl; [by rewrite app_nil_r | done].
Qed.

(** X2.  [get_hosts_info] is the generator followed by the renaming of
    each entry, up to the first entry that lacks a field: with the entries
    and the ending of an iteration over [get_generic_host_entries] on the
    same fuel, it raises the [KeyError] of the first entry whose record
    cannot be built; otherwise it returns all records if the generator
    finished, raises the exception that aborted the generator, and has no
    result yet while the generator is pending. *)
Theorem hosts_info_follows_generator (fuel : nat) :
  get_hosts_info fc fuel
  = match mapM host_info (iterate fc fuel get_generic_host_entries).1 with
    | Raise e => Some (Raise e)
    | Ok infos =>
        match (iterate fc fuel get_generic_host_entries).2 with
        | Finished => Some (Ok infos)
        | Aborted e => Some (Raise e)
        | Pending _ => None
        end
    end.
Proof.
  unfold get_hosts_info, get_generic_host_entries.
  by rewrite (hosts_info_loop_iterate fuel 0 []).
Qed.

Lemma mapM_host_info_total entries :
  Forall is_host_entry entries -> exists infos, mapM host_info entries = Ok infos.
Proof.
  induction 1 as [| host entries Hh _ [infos IH]]; [by exists [] |].
  destruct (host_info_total host Hh) as [info Hi].
  exists (info :: infos). cbn [mapM]. by rewrite Hi, IH.
Qed.

(** X3.  On a device that answers every index with a complete entry, and
    so never signals the end of the table, neither enumeration ends: for
    every fuel the generator has yielded [fuel] entries and waits for more,
    and [get_hosts_info] has not returned. *)
Theorem enumeration_needs_the_signal (fuel : nat) :
  (forall index, exists host,
      get_generic_host_entry fc index = Ok host /\ is_host_entry host) ->
  length (iterate fc fuel get_generic_host_entries).1 = fuel
  /\ (iterate fc fuel get_generic_host_entries).2 = Pending (Suspended fuel)
  /\ get_hosts_info fc fuel = None.
Proof.
  intros Hall.
  assert (forall fuel index,
             length (iterate fc fuel (Suspended index)).1 = fuel
             /\ (iterate fc fuel (Suspended index)).2
                = Pending (Suspended (index + fuel))
             /\ Forall is_host_entry (iterate fc fuel (Suspended index)).1) as Hgen.
  { clear fuel. induction fuel as [| fuel IH]; intros index.
    - simpl. by rewrite Nat.add_0_r.
    - cbn [iterate next]. destruct (Hall index) as (host & -> & Hwf).
      destruct (IH (S index)) as (Hlen & Hend & Hwfs).
      destruct (iterate fc fuel (Suspended (S index))) as [hosts ending'].
      simpl in *. split; [by rewrite Hlen |]. split.
      + rewrite Hend. do 2 f_equal. lia.
      + by constructor. }
  destruct (Hgen fuel 0%nat) as (Hlen & Hend & Hwf).
  split; [done |]. split; [done |].
  unfold get_hosts_info. rewrite (hosts_info_loop_iterate fuel 0 []).
  destruct (mapM_host_info_total _ Hwf) as [infos ->]. by rewrite Hend.
Qed.

End EnumerationTraces.

Section Accessors.
Context {J : Type} (fc : FritzConnection J).

Lemma mapM_subscript_raises (host : dict) keys : forall e,
  mapM (subscript host) keys = Raise e ->
  exists before key behind,
    keys = before ++ key :: behind
    /\ Forall (fun k => is_Some (host !! k)) before
    /\ host !! key = None
    /\ e = KeyError key.
Proof.
  induction keys as [| key keys IH]; intros e; [discriminate |].
  cbn [mapM]. destruct (subscript host key) as [v | e0] eqn:Hs.
  - destruct (mapM (subscript host) keys) as [vs | e'] eqn:Hrest;
      [discriminate |].
    intros [= <-]. apply subscript_Ok in Hs.
    destruct (IH e' eq_refl) as (before & key' & behind & -> & Hb & Hn & ->).
    exists (key :: before), key', behind. repeat split; try done.
    constructor; [by eexists | done].
  - intros [= <-]. unfold subscript in Hs.
    destruct (host !! key) eqn:Hk; [discriminate |]. injection Hs as <-.
    by exists [], key, keys.
Qed.

Lemma host_info_raises_as_subscripts (host : dict) e :
  host_info host = Raise e -> mapM (subscript host) info_fields = Raise e.
Proof.
  unfold host_info, info_fields. cbn [mapM]. unfold subscript.
  repeat match goal with
         | |- context [host !! ?k] =>
             destruct (host !! k); simpl; [| by intros [= <-]]
         end.
  discriminate.
Qed.

(** X5.  The record of an entry can be built exactly when the entry has
    the seven fields; otherwise the dictionary literal raises the
    [KeyError] of the first missing field in the order written
    ([NewIPAddress], [NewHostName], [NewMACAddress], [NewActive],
    [NewInterfaceType], [NewAddressSource], [NewLeaseTimeRemaining]). *)
Theorem host_info_first_missing_field (host : dict) :
  ((exists info, host_info host = Ok info) <-> is_host_entry host)
  /\ forall e,
       host_info host = Raise e ->
       exists before key behind,
         info_fields = before ++ key :: behind
         /\ Forall (fun k => is_Some (host !! k)) before
         /\ host !! key = None
         /\ e = KeyError key.
Proof.
  split; [split |].
  - intros [info Hi]. unfold is_host_entry, info_fields.
    unfold host_info, subscript in Hi.
    repeat match type of Hi with
           | context [host !! ?k] =>
               destruct (host !! k) eqn:?; simpl in Hi; [| discriminate Hi]
           end.
    repeat (apply Forall_cons_2 || apply Forall_nil_2); by eexists.
  - apply host_info_total.
  - intros e He. by apply mapM_subscript_raises, host_info_raises_as_subscripts.
Qed.

Lemma host_info_dom (host info : dict) :
  host_info host = Ok info -> dom info = info_keys.
Proof.
  unfold host_info, subscript.
  repeat match goal with
         | |- context [host !! ?k] => destruct (host !! k); simpl; [| discriminate]
         end.
  intros [= <-]. rewrite !dom_insert_L, dom_empty_L. unfold info_keys.
  set_solver.
Qed.

Lemma mapM_host_info_Forall2 entries : forall infos,
  mapM host_info entries = Ok infos ->
  Forall2 (fun host info => host_info host = Ok info) entries infos.
Proof.
  induction entries as [| host entries IH]; intros infos; cbn [mapM].
  - intros [= <-]. constructor.
  - destruct (host_info host) as [info |] eqn:Hi; [| discriminate]. simpl.
    destruct (mapM host_info entries) as [infos' |]; [| discriminate]. simpl.
    intros [= <-]. constructor; [done | by apply IH].
Qed.

(** X6.  Every record that [get_hosts_info] returns has exactly the seven
    keys [ip], [name], [mac], [status], [interface_type], [address_source]
    and [lease_time_remaining]: any further field of the entry is dropped,
    and the records of [get_active_hosts] are among them. *)
Theorem hosts_info_records_have_the_seven_keys (fuel : nat) (infos : list dict) :
  get_hosts_info fc fuel = Some (Ok infos) ->
  Forall (fun info => dom info = info_keys) infos
  /\ exists active,
       get_active_hosts fc fuel = Some (Ok active)
       /\ Forall (fun info => dom info = info_keys) active.
Proof.
  intros Hinfo.
  assert (Forall (fun info => dom info = info_keys) infos) as Hdom.
  { unfold get_hosts_info in Hinfo.
    rewrite (hosts_info_loop_iterate fc fuel 0 []) in Hinfo.
    destruct (mapM host_info _) as [infos' |] eqn:Hm; [| discriminate].
    destruct (iterate fc fuel (Suspended 0)).2; try discriminate.
    injection Hinfo as <-. simpl.
    apply mapM_host_info_Forall2 in Hm.
    induction Hm as [| host info entries infos' Hi _ IH]; constructor; [| done].
    by eapply host_info_dom. }
  split; [done |]. exists (List.filter is_active infos). split.
  - unfold get_active_hosts. rewrite Hinfo. simpl.
    f_equal. apply active_filter_filter.
    by eapply get_hosts_info_has_status.
  - apply Forall_forall. intros info Hin.
    apply list_elem_of_In, filter_In in Hin as [Hin _].
    apply list_elem_of_In in Hin. by eapply Forall_forall in Hdom.
Qed.

(** X7.  [get_host_name] lets every exception of the lookup through, so
    the two readers of [GetSpecificHostEntry] differ on an unknown or
    invalid MAC address: whenever [get_host_status] answers [None] (on a
    device whose entries carry the boolean flag), [get_host_name] raises
    the [FritzArgumentError] or [FritzLookUpError] of the lookup. *)
Theorem status_none_means_name_raises (mac_address : pyval) :
  (forall result, get_specific_host_entry fc mac_address = Ok result ->
                  exists b, result !! "NewActive" = Some (PyBool b)) ->
  get_host_status fc mac_address = Ok PyNone ->
  exists e,
    get_specific_host_entry fc mac_address = Raise e
    /\ is_argument_or_lookup_error e = true
    /\ get_host_name fc mac_address = Raise e.
Proof.
  intros Hflag. unfold get_host_status, get_host_name.
  destruct (get_specific_host_entry fc mac_address) as [result | e].
  - destruct (Hflag result eq_refl) as [b Hb]. unfold subscript. rewrite Hb.
    discriminate.
  - destruct (is_argument_or_lookup_error e) eqn:He; [| discriminate].
    intros _. by exists e.
Qed.

(** X8.  The ways [get_mesh_topology] can fail: the action raised; the
    result has no path ([KeyError]); the session raised; the response was
    not ok ([FritzActionError] with the status code); or, for [raw=False]
    only, decoding the body of an ok response raised.  With [raw=True] an
    ok response never fails. *)
Theorem mesh_topology_failure_modes (raw : bool) (e : exn) :
  get_mesh_topology fc raw = Raise e ->
  _action fc "X_AVM-DE_GetMeshListPath" None ∅ = Raise e
  \/ exists result,
       _action fc "X_AVM-DE_GetMeshListPath" None ∅ = Ok result
       /\ ((result !! "NewX_AVM-DE_MeshListPath" = None
            /\ e = KeyError "NewX_AVM-DE_MeshListPath")
           \/ exists path,
                result !! "NewX_AVM-DE_MeshListPath" = Some path
                /\ (session_get fc (address fc +:+ ":" +:+ str_of_int (port fc)
                                    +:+ py_str path) = Raise e
                    \/ exists reply,
                         session_get fc (address fc +:+ ":"
                                         +:+ str_of_int (port fc)
                                         +:+ py_str path) = Ok reply
                         /\ ((ok reply = false
                              /\ e = FritzActionError
                                       (topology_error (status_code reply)))
                             \/ (ok reply = true /\ raw = false
                                 /\ json reply = Raise e)))).
Proof.
  unfold get_mesh_topology, subscript.
  destruct (_action fc "X_AVM-DE_GetMeshListPath" None ∅) as [result | e0];
    simpl; [| intros [= <-]; by left].
  intros H. right. exists result. split; [done |].
  destruct (result !! "NewX_AVM-DE_MeshListPath") as [path |]; simpl in H;
    [| injection H as <-; by left].
  right. exists path. split; [done |].
  destruct (session_get fc _) as [reply | e1]; simpl in H;
    [| injection H as <-; by left].
  right. exists reply. split; [done |].
  destruct (ok reply); simpl in H.
  - right. destruct raw; [discriminate |].
    destruct (json reply); [discriminate |]. injection H as <-. done.
  - left. injection H as <-. done.
Qed.

End Accessors.

(** * Further properties of class _Host and of the host list *)

Lemma attributes_loop_Ok_iff items : forall acc,
  (exists attrs, attributes_loop items acc = Ok attrs) <-> Forall convertible items.
Proof.
  induction items as [| [name value] items IH]; intros acc; simpl.
  - split; [constructor | by eexists].
  - split.
    + intros [attrs H]. destruct (convert name value) as [v |] eqn:Hc; [| done].
      constructor; [by exists v |]. apply (IH (od_set acc name v)). by exists attrs.
    + intros H. apply Forall_cons_1 in H as [[v Hc] H]. simpl in Hc.
      rewrite Hc. simpl. by apply IH.
Qed.

Lemma attributes_loop_first_failure items : forall acc e,
  attributes_loop items acc = Raise e
  <-> exists before name raw behind,
        items = before ++ (name, raw) :: behind
        /\ Forall convertible before
        /\ convert name raw = Raise e.
Proof.
  induction items as [| [name value] items IH]; intros acc e; simpl.
  - split; [discriminate |]. intros (before & ? & ? & ? & H & _).
    by destruct before.
  - destruct (convert name value) as [v | e'] eqn:Hc; simpl.
    + rewrite IH. split.
      * intros (before & n & raw & behind & -> & Hb & Hn).
        exists ((name, value) :: before), n, raw, behind.
        repeat split; [| done]. constructor; [by exists v | done].
      * intros (before & n & raw & behind & Heq & Hb & Hn).
        destruct before as [| kv before]; simpl in Heq.
        -- injection Heq as <- <- <-. congruence.
        -- injection Heq as <- ->. apply Forall_cons_1 in Hb as [_ Hb].
           by exists before, n, raw, behind.
    + split.
      * intros [= <-]. by exists [], name, value, items.
      * intros (before & n & raw & behind & Heq & Hb & Hn).
        destruct before as [| kv before]; simpl in Heq.
        -- injection Heq as <- <- <-. congruence.
        -- injection Heq as <- ->. apply Forall_cons_1 in Hb as [[v Hv] _].
           simpl in Hv. congruence.
Qed.

(** X9.  The snapshot succeeds exactly when every attribute of the
    instance converts; otherwise it raises the exception of the first
    attribute, in insertion order, that does not convert, and no partial
    snapshot is returned. *)
Theorem attributes_raises_the_first_failure (self : host) :
  ((exists attrs, (attributes self).1 = Ok attrs) <-> Forall convertible self)
  /\ forall e,
       (attributes self).1 = Raise e
       <-> exists before name raw behind,
             self = before ++ (name, raw) :: behind
             /\ Forall convertible before
             /\ convert name raw = Raise e.
Proof.
  split; [apply attributes_loop_Ok_iff | intros e; apply attributes_loop_first_failure].
Qed.

Lemma attributes_loop_unique items : forall acc attrs,
  NoDup (od_keys items) ->
  (forall key, In key (od_keys items) -> od_get acc key = None) ->
  attributes_loop items acc = Ok attrs ->
  exists converted,
    attrs = acc ++ converted
    /\ Forall2 (fun kv kv' => kv'.1 = kv.1 /\ convert kv.1 kv.2 = Ok kv'.2)
               items converted.
Proof.
  induction items as [| [name value] items IH]; intros acc attrs Hnd Hfresh; simpl.
  - intros [= <-]. exists []. by rewrite app_nil_r.
  - destruct (convert name value) as [v |] eqn:Hc; [| done]. simpl.
    simpl in Hnd. apply NoDup_cons in Hnd as [Hnotin Hnd].
    rewrite od_set_absent by (apply Hfresh; by left).
    intros Hrun. destruct (IH (acc ++ [(name, v)]) attrs Hnd) as (conv & -> & Hconv);
      [| done |].
    + intros key Hin. rewrite od_get_app, (Hfresh key) by by right. simpl.
      destruct (String.eqb name key) eqn:E; [| done].
      apply String.eqb_eq in E as ->. exfalso. apply Hnotin.
      by apply list_elem_of_In.
    + exists ((name, v) :: conv). split; [by rewrite <- app_assoc |].
      by constructor.
Qed.

Lemma converted_get items converted key :
  Forall2 (fun kv kv' : string * pyval =>
             kv'.1 = kv.1 /\ convert kv.1 kv.2 = Ok kv'.2) items converted ->
  match od_get items key with
  | Some raw => exists v, convert key raw = Ok v /\ od_get converted key = Some v
  | None => od_get converted key = None
  end.
Proof.
  induction 1 as [| [k raw] [k' v] items converted [Hk Hc] _ IH]; [done |].
  simpl in *. subst k'. destruct (String.eqb k key) eqn:E; [| done].
  apply String.eqb_eq in E as ->. by exists v.
Qed.

(** X10.  On an instance (its attribute names are pairwise different) a
    snapshot that succeeds has the attribute names of the instance, in the
    same order; under each name it holds the conversion of the value
    stored, and it holds nothing under a name that is not set. *)
Theorem attributes_keeps_names_and_order (self : host) (attrs : odict) :
  NoDup (od_keys self) ->
  (attributes self).1 = Ok attrs ->
  od_keys attrs = od_keys self
  /\ (forall name raw,
        od_get self name = Some raw ->
        exists v, convert name raw = Ok v /\ od_get attrs name = Some v)
  /\ (forall name, od_get self name = None -> od_get attrs name = None).
Proof.
  intros Hnd Hrun.
  destruct (attributes_loop_unique self [] attrs Hnd) as (conv & -> & Hconv);
    [done | done |]. simpl.
  split; [| split].
  - unfold od_keys. clear Hnd Hrun.
    induction Hconv as [| kv kv' items conv [Hk _] _ IH]; [done |].
    simpl. by rewrite Hk, IH.
  - intros name raw Hget. pose proof (converted_get self conv name Hconv) as H.
    by rewrite Hget in H.
  - intros name Hget. pose proof (converted_get self conv name Hconv) as H.
    by rewrite Hget in H.
Qed.

(** The attribute names of an instance stay pairwise different under
    assignments, reads and snapshots. *)
Lemma od_keys_set (d : odict) key value :
  od_keys (od_set d key value)
  = match od_get d key with
    | Some _ => od_keys d
    | None => od_keys d ++ [key]
    end.
Proof.
  induction d as [| [k v] d IH]; simpl; [done |].
  destruct (String.eqb k key); simpl; [done |].
  rewrite IH. by destruct (od_get d key).
Qed.

Lemma setattr_keeps_names_unique (self : host) name value :
  NoDup (od_keys self) -> NoDup (od_keys (setattr self name value)).
Proof.
  intros Hnd. unfold setattr. rewrite od_keys_set.
  destruct (od_get self name) eqn:Hget; [done |].
  apply NoDup_app. split; [done |]. split; [| apply NoDup_singleton].
  intros key Hin ->%list_elem_of_singleton.
  apply od_get_None_keys in Hget. by apply Hget, list_elem_of_In.
Qed.

Lemma run_keeps_names_unique accesses : forall self : host,
  NoDup (od_keys self) -> NoDup (od_keys (run self accesses).2).
Proof.
  induction accesses as [| a accesses IH]; intros self Hnd; [done |].
  simpl. destruct (perform self a) as [o self'] eqn:Hp.
  specialize (IH self'). destruct (run self' accesses) as [os self''].
  simpl in *. apply IH. destruct a as [attr_name |]; simpl in Hp.
  - unfold getattr, __getattr__ in Hp.
    destruct (od_get self attr_name); [by injection Hp as _ <- |].
    destruct (od_get (setattr self attr_name PyNone) attr_name);
      injection Hp as _ <-; by apply setattr_keeps_names_unique.
  - by injection Hp as _ <-.
Qed.

(** X11.  Reading an attribute twice: the second read returns what the
    first returned and changes nothing more.  A read of an attribute that
    is set changes nothing at all and returns the value as stored,
    unconverted. *)
Theorem getattr_twice (self : host) (name : string) :
  getattr (getattr self name).2 name
  = ((getattr self name).1, (getattr self name).2)
  /\ (forall raw, od_get self name = Some raw -> getattr self name = (raw, self)).
Proof.
  split.
  - destruct (od_get self name) as [raw |] eqn:Hget.
    + unfold getattr. rewrite Hget. simpl. by rewrite Hget.
    + rewrite (getattr_unset self name Hget). simpl.
      unfold getattr. rewrite od_get_app, Hget. simpl.
      by rewrite String.eqb_refl.
  - intros raw Hget. unfold getattr. by rewrite Hget.
Qed.

Lemma hosts_attributes_first_failure hosts : forall e,
  hosts_attributes hosts = Raise e
  <-> exists before h behind,
        hosts = before ++ h :: behind
        /\ Forall (fun h' => exists attrs, (attributes h').1 = Ok attrs) before
        /\ (attributes h).1 = Raise e.
Proof.
  induction hosts as [| h hosts IH]; intros e; simpl.
  - split; [discriminate |]. intros (before & ? & ? & H & _). by destruct before.
  - destruct (attributes_loop h []) as [attrs | e'] eqn:Ha; simpl.
    + destruct (hosts_attributes hosts) as [others | e''] eqn:Hrest; simpl.
      * split; [discriminate |].
        intros (before & h' & behind & Heq & Hb & Hh).
        destruct before as [| b before]; simpl in Heq.
        -- injection Heq as <- <-. simpl in Hh. congruence.
        -- injection Heq as <- ->. apply Forall_cons_1 in Hb as [_ Hb].
           assert (Ok others = Raise e) as Habs; [| discriminate Habs].
           apply IH. by exists before, h', behind.
      * split.
        -- intros [= <-]. destruct (proj1 (IH e'') eq_refl)
             as (before & h' & behind & -> & Hb & Hh).
           exists (h :: before), h', behind. repeat split; [| done].
           constructor; [by exists attrs | done].
        -- intros (before & h' & behind & Heq & Hb & Hh).
           destruct before as [| b before]; simpl in Heq.
           ++ injection Heq as <- <-. simpl in Hh. congruence.
           ++ injection Heq as <- ->. apply Forall_cons_1 in Hb as [_ Hb].
              apply IH. by exists before, h', behind.
    + split.
      * intros [= <-]. by exists [], h, hosts.
      * intros (before & h' & behind & Heq & Hb & Hh).
        destruct before as [| b before]; simpl in Heq.
        -- injection Heq as <- <-. simpl in Hh. congruence.
        -- injection Heq as <- ->. apply Forall_cons_1 in Hb as [[a Hv] _].
           simpl in Hv. congruence.
Qed.

(** X12.  The list of snapshots is all or nothing: [hosts_attributes]
    raises exactly when some host does not convert, with the exception of
    the first such host in document order, so one host with a typed field
    that is no number costs the whole list. *)
Theorem hosts_attributes_all_or_nothing (hosts : list host) :
  (forall e,
      hosts_attributes hosts = Raise e
      <-> exists before h behind,
            hosts = before ++ h :: behind
            /\ Forall (fun h' => exists attrs, (attributes h').1 = Ok attrs) before
            /\ (attributes h).1 = Raise e)
  /\ (forall h e,
        In h hosts -> (attributes h).1 = Raise e ->
        exists e', hosts_attributes hosts = Raise e').
Proof.
  split; [apply hosts_attributes_first_failure |].
  intros h e Hin Hh.
  destruct (hosts_attributes hosts) as [records | e'] eqn:Hrun; [| by exists e'].
  apply hosts_attributes_Forall2 in Hrun. exfalso.
  apply list_elem_of_In, list_elem_of_lookup_1 in Hin as [i Hi].
  destruct (Forall2_lookup_l _ _ _ _ _ Hrun Hi) as (attrs & _ & Ha).
  congruence.
Qed.




(** ** The further properties on example devices and documents *)

Lemma generator_trace_witness :
  get_generic_host_entry example_device 2 = Raise (IndexError "SpecifiedArrayIndexInvalid").
Proof.
  destruct (generator_trace example_device 3 two_hosts Finished) as [_ [message H]].
  - reflexivity.
  - pose proof H as H'. vm_compute in H'. injection H' as <-. exact H.
Defined.

Lemma enumeration_needs_the_signal_witness :
  get_hosts_info endless_device 7 = None.
Proof.
  destruct (enumeration_needs_the_signal endless_device 7) as (_ & _ & H).
  - intros index. eexists. split; [reflexivity |].
    unfold is_host_entry, info_fields.
    repeat (apply Forall_cons_2 || apply Forall_nil_2); eexists; reflexivity.
  - exact H.
Defined.

Lemma host_info_first_missing_field_witness :
  exists before behind,
    info_fields = before ++ "NewActive" :: behind
    /\ Forall (fun k => is_Some (entry_without_status !! k)) before.
Proof.
  destruct (host_info_first_missing_field entry_without_status) as [_ H].
  destruct (H (KeyError "NewActive")) as (before & key & behind & H1 & H2 & _ & H4).
  - reflexivity.
  - injection H4 as <-. exists before, behind. split; assumption.
Defined.

Lemma hosts_info_records_have_the_seven_keys_witness :
  exists infos,
    get_hosts_info example_device 3 = Some (Ok infos)
    /\ Forall (fun info => dom info = info_keys) infos.
Proof.
  destruct (get_hosts_info example_device 3) as [[infos | e] |] eqn:E;
    [| discriminate E | discriminate E].
  exists infos. split; [reflexivity |].
  destruct (hosts_info_records_have_the_seven_keys example_device 3 infos)
    as [H _]; [exact E | exact H].
Defined.

Lemma status_none_means_name_raises_witness :
  get_host_status example_device (PyStr "00:00:00:00:00:00") = Ok PyNone
  /\ get_host_name example_device (PyStr "00:00:00:00:00:00")
     = Raise (FritzLookUpError "NoSuchEntryInArray").
Proof.
  split; [reflexivity |].
  destruct (status_none_means_name_raises example_device
              (PyStr "00:00:00:00:00:00")) as (e & H1 & _ & H3).
  - intros result H. discriminate H.
  - reflexivity.
  - rewrite H3. vm_compute in H1. injection H1 as <-. reflexivity.
Defined.

Lemma mesh_topology_failure_modes_witness :
  exists reply,
    session_get (device two_hosts reply_500 empty_document)
      "http://192.168.178.1:49000/meshlist.lua?sid=1" = Ok reply
    /\ ok reply = false.
Proof.
  destruct (mesh_topology_failure_modes
              (device two_hosts reply_500 empty_document) false
              (FritzActionError
                 "Error 500: Device has no access to topology information."))
    as [H | (result & Hact & [[_ H] | (path & Hpath & [H | (reply & Hget & H)])])].
  - reflexivity.
  - discriminate H.
  - discriminate H.
  - discriminate H.
  - exists reply. split; [exact Hget |].
    destruct H as [[Hok _] | (Hok & _)]; [exact Hok |].
    injection Hget as <-. discriminate Hok.
Defined.

Lemma attributes_keeps_names_and_order_witness :
  exists attrs,
    (attributes (process_node [] item_node)).1 = Ok attrs
    /\ od_keys attrs = od_keys (process_node [] item_node).
Proof.
  destruct (attributes (process_node [] item_node)).1 as [attrs |] eqn:E;
    [| discriminate E].
  exists attrs. split; [reflexivity |].
  destruct (attributes_keeps_names_and_order (process_node [] item_node) attrs)
    as [H _].
  - apply (bool_decide_unpack _). vm_compute. exact I.
  - exact E.
  - exact H.
Defined.

